(** * feature-view.py: a shallow embedding and its checked properties

    The script reads a BED file named on the command line and draws one
    horizontal bar per line.  It runs in three stages: the argument gate
    (lines 26-28), the read loop (lines 33-42) and the plot set-up
    (lines 47-57).

    Modelling choices.
    - A Python [str] is a [string]: characters are 8-bit code points, so
      the text of the file is taken after decoding and restricted to code
      points below 256.
    - A Python [int] is a [Z] (unbounded).  The interpreter's optional cap
      on the number of digits accepted by [int()] is not modelled.
    - The script's three lists and everything it does to the outside world
      (opening, reading and closing the file, every call into the plotting
      library) live in an explicit state that is threaded through a small
      state-and-exception monad.  The state survives an exception, as the
      module's globals do.
    - The file system is a function from paths to decoded file contents.
    - The plotting library is external: its calls are recorded, with their
      arguments, in the order they are made. *)

From Stdlib Require Import ZArith List String Ascii Bool Lia QArith.
Import ListNotations.
Local Open Scope string_scope.
Local Open Scope Z_scope.

(** ** Python strings *)

Module PyStr.

(** [str.isspace] on one character, for code points below 256:
    TAB..CR, FS..US, SPACE, NEL and NBSP. *)
Definition isspace (c : ascii) : bool :=
  let n := N_of_ascii c in
  ((9 <=? n) && (n <=? 13) || (28 <=? n) && (n <=? 32)
   || (n =? 133) || (n =? 160))%N.

Definition isdigit (c : ascii) : bool :=
  let n := N_of_ascii c in ((48 <=? n) && (n <=? 57))%N.

Definition digit_value (c : ascii) : Z := Z.of_N (N_of_ascii c) - 48.

Fixpoint rev_append (acc s : string) : string :=
  match s with
  | EmptyString => acc
  | String c s' => rev_append (String c acc) s'
  end.

Definition rev (s : string) : string := rev_append EmptyString s.

(** [split_from cur s]: [cur] is the field being read, kept reversed;
    [None] while between fields. *)
Fixpoint split_from (cur : option string) (s : string) : list string :=
  match s with
  | EmptyString =>
      match cur with
      | Some w => [rev w]
      | None => []
      end
  | String c s' =>
      if isspace c then
        match cur with
        | Some w => rev w :: split_from None s'
        | None => split_from None s'
        end
      else
        match cur with
        | Some w => split_from (Some (String c w)) s'
        | None => split_from (Some (String c EmptyString)) s'
        end
  end.

(** [line.split()]: the maximal runs of non-whitespace characters. *)
Definition split (s : string) : list string := split_from None s.

Fixpoint lstrip (s : string) : string :=
  match s with
  | String c s' => if isspace c then lstrip s' else s
  | EmptyString => EmptyString
  end.

Definition strip (s : string) : string := rev (lstrip (rev (lstrip s))).

(** The digits of an [int()] literal, read left to right with the value
    so far in [acc].  [after_digit] tells whether the previous character
    was a digit: an underscore is accepted only between two digits. *)
Fixpoint digits_from (after_digit : bool) (acc : Z) (s : string) : option Z :=
  match s with
  | EmptyString => if after_digit then Some acc else None
  | String c s' =>
      if isdigit c then digits_from true (10 * acc + digit_value c) s'
      else if (Ascii.eqb c "_" && after_digit)%bool then
        match s' with
        | EmptyString => None
        | String d _ => if isdigit d then digits_from false acc s' else None
        end
      else None
  end.

(** [int(s)] in base 10: surrounding whitespace is dropped, one sign is
    allowed, then digits.  [None] stands for [ValueError]. *)
Definition int (s : string) : option Z :=
  match strip s with
  | String "-" ds => option_map Z.opp (digits_from false 0 ds)
  | String "+" ds => digits_from false 0 ds
  | ds => digits_from false 0 ds
  end.

Definition LF : ascii := ascii_of_nat 10.
Definition CR : ascii := ascii_of_nat 13.

(** Text-mode reading with the default [newline=None]: a CR LF pair and a
    lone CR both arrive as LF. *)
Fixpoint universal_newlines (s : string) : string :=
  match s with
  | EmptyString => EmptyString
  | String c s' =>
      if Ascii.eqb c CR then
        String LF
          match s' with
          | String d s'' =>
              if Ascii.eqb d LF then universal_newlines s''
              else universal_newlines s'
          | EmptyString => EmptyString
          end
      else String c (universal_newlines s')
  end.

(** [lines_from cur s]: [cur] is the line being read, kept reversed. *)
Fixpoint lines_from (cur : string) (s : string) : list string :=
  match s with
  | EmptyString =>
      match cur with
      | EmptyString => []
      | _ => [rev cur]
      end
  | String c s' =>
      if Ascii.eqb c LF then rev (String c cur) :: lines_from EmptyString s'
      else lines_from (String c cur) s'
  end.

(** The lines of a text, each with its terminating LF; a last line
    without one is kept when it is not empty. *)
Definition splitlines_keep (s : string) : list string :=
  lines_from EmptyString s.

End PyStr.

Arguments PyStr.int : simpl never.
Arguments PyStr.split : simpl never.

(** ** The script's state, exceptions and monad *)

(** The exceptions the script can raise. *)
Inductive exn : Type :=
| SystemExit (msg : string)
| OSError (path : string)
| IndexError
| ValueError (literal : string).

(** Calls into [matplotlib.pyplot] and on the axes object [ax].  The
    float literal [0.3] is kept as the rational it is written as. *)
Inductive plot_call : Type :=
| rcdefaults
| subplots
| barh (y width : list Z) (height : Q) (left : list Z) (align : string)
| set_yticks (ticks : list Z)
| set_yticklabels (labels : list string)
| invert_yaxis
| set_xlabel (label : string)
| set_title (label : string)
| show.

(** What the script does to the outside world. *)
Inductive event : Type :=
| FileOpen (path mode : string)
| FileReadlines
| FileClose
| Plot (c : plot_call).

Record state : Type := mkState {
  features : list string;
  lengths : list Z;
  fstarts : list Z;
  handle_open : bool;
  trace : list event
}.

Definition initial : state := mkState [] [] [] false [].

Inductive result (A : Type) : Type :=
| Ok (a : A)
| Raise (e : exn).
Arguments Ok {A} a.
Arguments Raise {A} e.

Definition M (A : Type) : Type := state -> result A * state.

Definition ret {A} (a : A) : M A := fun st => (Ok a, st).

Definition bind {A B} (c : M A) (k : A -> M B) : M B :=
  fun st =>
    match c st with
    | (Ok a, st') => k a st'
    | (Raise e, st') => (Raise e, st')
    end.

Definition raise {A} (e : exn) : M A := fun st => (Raise e, st).

Definition get : M state := fun st => (Ok st, st).

Definition modify (f : state -> state) : M unit := fun st => (Ok tt, f st).

Declare Scope py_scope.
Delimit Scope py_scope with py.
Notation "x <- c ;; k" := (bind c (fun x => k))
  (at level 61, c at next level, right associativity) : py_scope.
Notation "c ;; k" := (bind c (fun _ => k))
  (at level 61, right associativity) : py_scope.
Local Open Scope py_scope.

(** [for x in l: body x] *)
Fixpoint for_each {A} (l : list A) (body : A -> M unit) : M unit :=
  match l with
  | [] => ret tt
  | x :: l' => body x ;; for_each l' body
  end.

(** ** The primitives the script calls *)

Definition filesystem : Type := string -> option string.

Definition emit (e : event) (st : state) : state :=
  mkState (features st) (lengths st) (fstarts st) (handle_open st)
          (trace st ++ [e]).

Definition set_handle (b : bool) (st : state) : state :=
  mkState (features st) (lengths st) (fstarts st) b (trace st).

(** [l[i]] for a non-negative constant index. *)
Definition getitem {A} (l : list A) (i : nat) : M A :=
  match nth_error l i with
  | Some x => ret x
  | None => raise IndexError
  end.

(** [int(s)] *)
Definition int (s : string) : M Z :=
  match PyStr.int s with
  | Some z => ret z
  | None => raise (ValueError s)
  end.

(** [sys.exit(msg)] *)
Definition sys_exit {A} (msg : string) : M A := raise (SystemExit msg).

(** [open(path, mode)]: the file object is modelled by the text it holds. *)
Definition open (fs : filesystem) (path mode : string) : M string :=
  modify (emit (FileOpen path mode)) ;;
  match fs path with
  | Some text => modify (set_handle true) ;; ret text
  | None => raise (OSError path)
  end.

(** [f.readlines()] *)
Definition readlines (f : string) : M (list string) :=
  modify (emit FileReadlines) ;;
  ret (PyStr.splitlines_keep (PyStr.universal_newlines f)).

(** [f.close()] *)
Definition close (f : string) : M unit :=
  modify (emit FileClose) ;; modify (set_handle false).

Definition plot (c : plot_call) : M unit := modify (emit (Plot c)).

(** [numpy.arange(n)] *)
Definition arange (n : nat) : list Z := map Z.of_nat (seq 0 n).

Definition assign_features (l : list string) : M unit :=
  modify (fun st => mkState l (lengths st) (fstarts st) (handle_open st) (trace st)).
Definition assign_lengths (l : list Z) : M unit :=
  modify (fun st => mkState (features st) l (fstarts st) (handle_open st) (trace st)).
Definition assign_fstarts (l : list Z) : M unit :=
  modify (fun st => mkState (features st) (lengths st) l (handle_open st) (trace st)).

Definition push_feature (x : string) (st : state) : state :=
  mkState (features st ++ [x]) (lengths st) (fstarts st) (handle_open st) (trace st).
Definition push_length (z : Z) (st : state) : state :=
  mkState (features st) (lengths st ++ [z]) (fstarts st) (handle_open st) (trace st).
Definition push_fstart (z : Z) (st : state) : state :=
  mkState (features st) (lengths st) (fstarts st ++ [z]) (handle_open st) (trace st).

(** ** The script *)

Definition usage : string :=
  "Usage: sys.argv[0] bed-file" ++ String PyStr.LF EmptyString.

(** Lines 26-28: process command line args. *)
Definition gate (argv : list string) : M string :=
  if negb (Nat.eqb (List.length argv) 2) then sys_exit usage
  else getitem argv 1.

(** Lines 38-41: the body of the read loop. *)
Definition loop_body (line : string) : M unit :=
  let a := PyStr.split line in
  name <- getitem a 3 ;;
  modify (push_feature name) ;;
  a2 <- getitem a 2 ;;
  e <- int a2 ;;
  a1 <- getitem a 1 ;;
  s <- int a1 ;;
  modify (push_length (e - s)) ;;
  a1' <- getitem a 1 ;;
  s' <- int a1' ;;
  modify (push_fstart s').

(** Lines 33-42: read the BED file into the three lists. *)
Definition load (fs : filesystem) (bed_file : string) : M unit :=
  f <- open fs bed_file "r" ;;
  assign_features [] ;;
  assign_lengths [] ;;
  assign_fstarts [] ;;
  lines <- readlines f ;;
  for_each lines loop_body ;;
  close f.

(** Lines 47-57: set up the plot and show it. *)
Definition render : M unit :=
  plot rcdefaults ;;
  plot subplots ;;
  st <- get ;;
  let y_pos := arange (List.length (features st)) in
  plot (barh y_pos (lengths st) (3 # 10)%Q (fstarts st) "center") ;;
  plot (set_yticks y_pos) ;;
  st <- get ;;
  plot (set_yticklabels (features st)) ;;
  plot invert_yaxis ;;
  plot (set_xlabel "Position") ;;
  plot (set_title "Gene subfeatures") ;;
  plot show.

Definition main (fs : filesystem) (argv : list string) : M unit :=
  bed_file <- gate argv ;;
  load fs bed_file ;;
  render.

(** Running the script as a process, from a fresh interpreter. *)
Definition run (fs : filesystem) (argv : list string) : result unit * state :=
  main fs argv initial.

(** What the interpreter writes on standard error when the script ends. *)
Inductive stderr_output : Type :=
| Silent
| Text (s : string)
| Traceback (e : exn).

(** An uncaught [SystemExit] carrying a string prints the string and a
    newline and exits with status 1; any other uncaught exception prints
    a traceback and exits with status 1. *)
Definition stderr_of (r : result unit) : stderr_output :=
  match r with
  | Ok _ => Silent
  | Raise (SystemExit msg) => Text (msg ++ String PyStr.LF EmptyString)
  | Raise e => Traceback e
  end.

Definition exit_status (r : result unit) : Z :=
  match r with
  | Ok _ => 0
  | Raise _ => 1
  end.

(** ** Vocabulary for the statements *)

(** The lines the read loop iterates over. *)
Definition lines_of (text : string) : list string :=
  PyStr.splitlines_keep (PyStr.universal_newlines text).

(** Field [i] (0-based) of a line, when the line has one. *)
Definition field (i : nat) (line : string) : option string :=
  nth_error (PyStr.split line) i.

(** Field [i] read as an integer, when it is there and is one. *)
Definition int_field (i : nat) (line : string) : option Z :=
  match field i line with
  | Some x => PyStr.int x
  | None => None
  end.

Definition is_some {A} (o : option A) : bool :=
  match o with
  | Some _ => true
  | None => false
  end.

(** A line the loop body accepts: at least four fields, and integers in
    the second and the third. *)
Definition well_formed (line : string) : bool :=
  (4 <=? List.length (PyStr.split line))%nat
  && is_some (int_field 1 line) && is_some (int_field 2 line).

(** The complement, in the words of the error taxonomy. *)
Definition malformed (line : string) : Prop :=
  (List.length (PyStr.split line) < 4)%nat
  \/ int_field 1 line = None
  \/ int_field 2 line = None.

Definition or_empty (o : option string) : string :=
  match o with
  | Some x => x
  | None => EmptyString
  end.

Definition or_zero (o : option Z) : Z :=
  match o with
  | Some z => z
  | None => 0
  end.

Definition name_of (line : string) : string := or_empty (field 3 line).
Definition start_of (line : string) : Z := or_zero (int_field 1 line).
Definition end_of (line : string) : Z := or_zero (int_field 2 line).

(** The state once the loop has consumed the well-formed lines [ls]. *)
Definition loaded (st : state) (ls : list string) : state :=
  mkState (features st ++ map name_of ls)
          (lengths st ++ map (fun l => end_of l - start_of l) ls)
          (fstarts st ++ map start_of ls)
          (handle_open st) (trace st).

(** The state in which the loop starts. *)
Definition reading (path : string) : state :=
  mkState [] [] [] true [FileOpen path "r"; FileReadlines].

(** The calls [render] makes, for given lists. *)
Definition chart_calls (names : list string) (widths lefts : list Z)
  : list plot_call :=
  let y_pos := arange (List.length names) in
  [ rcdefaults; subplots;
    barh y_pos widths (3 # 10)%Q lefts "center";
    set_yticks y_pos;
    set_yticklabels names;
    invert_yaxis;
    set_xlabel "Position";
    set_title "Gene subfeatures";
    show ].

Definition is_plot (e : event) : bool :=
  match e with
  | Plot _ => true
  | _ => false
  end.

Definition is_file_io (e : event) : bool :=
  match e with
  | FileOpen _ _ | FileReadlines | FileClose => true
  | Plot _ => false
  end.

Definition contains (sub s : string) : bool :=
  is_some (String.index 0 sub s).

(** A string without whitespace, as every field of a line is. *)
Fixpoint nospace (s : string) : bool :=
  match s with
  | EmptyString => true
  | String c s' => negb (PyStr.isspace c) && nospace s'
  end.

Definition starts_with_minus (s : string) : bool :=
  match s with
  | String "-" _ => true
  | _ => false
  end.

(** ** Sample inputs *)

Module Sample.

Definition nl : string := String PyStr.LF EmptyString.

(** The two-line file of the second example scenario. *)
Definition two_lines : string :=
  "chr1 10 20 a" ++ nl ++ "chr1 30 45 b" ++ nl.

Definition exon1 : string := "chr1  100  150  exon1" ++ nl.
Definition letter_in_start : string := "chr1 1o 20 a" ++ nl.
Definition unterminated : string := "chr1 30 45 b".
Definition no_name : string := "chr1 10 20" ++ nl.

(** A good line, a line whose start is not a number, and one more line. *)
Definition bad_start : string := exon1 ++ letter_in_start ++ unterminated.

(** A good line followed by a line of three fields. *)
Definition three_fields : string := exon1 ++ no_name.

(** Positions written with a minus sign. *)
Definition negative : string := "chr1 -5 -2 x" ++ nl.

Definition disk (text : string) : filesystem :=
  fun path => if String.eqb path "gene.bed" then Some text else None.

Definition argv : list string := ["feature-view.py"; "gene.bed"].

End Sample.

(** ** Vocabulary for further properties *)

(** A string made of whitespace only, such as a blank line. *)
Fixpoint all_space (s : string) : bool :=
  match s with
  | EmptyString => true
  | String c s' => PyStr.isspace c && all_space s'
  end.

(** A text without carriage returns. *)
Fixpoint no_cr (s : string) : bool :=
  match s with
  | EmptyString => true
  | String c s' => negb (Ascii.eqb c PyStr.CR) && no_cr s'
  end.

(** The same text with every line feed written as CR LF. *)
Fixpoint crlf (s : string) : string :=
  match s with
  | EmptyString => EmptyString
  | String c s' =>
      if Ascii.eqb c PyStr.LF then String PyStr.CR (String PyStr.LF (crlf s'))
      else String c (crlf s')
  end.

(** The five ways a run of the script can end, with the state it ends in. *)
Inductive run_shape (fs : filesystem) (argv : list string)
  : result unit * state -> Prop :=
| shape_usage :
    List.length argv <> 2%nat ->
    run_shape fs argv (Raise (SystemExit usage), initial)
| shape_missing (prog path : string) :
    argv = [prog; path] ->
    fs path = None ->
    run_shape fs argv
      (Raise (OSError path), mkState [] [] [] false [FileOpen path "r"])
| shape_short (prog path text : string) (good rest : list string)
    (first : string) :
    argv = [prog; path] ->
    fs path = Some text ->
    lines_of text = (good ++ first :: rest)%list ->
    forallb well_formed good = true ->
    (List.length (PyStr.split first) < 4)%nat ->
    run_shape fs argv (Raise IndexError, loaded (reading path) good)
| shape_not_int (prog path text : string) (good rest : list string)
    (first name lit : string) :
    argv = [prog; path] ->
    fs path = Some text ->
    lines_of text = (good ++ first :: rest)%list ->
    forallb well_formed good = true ->
    field 3 first = Some name ->
    field 2 first = Some lit \/ field 1 first = Some lit ->
    PyStr.int lit = None ->
    run_shape fs argv
      (Raise (ValueError lit), push_feature name (loaded (reading path) good))
| shape_drawn (prog path text : string) :
    argv = [prog; path] ->
    fs path = Some text ->
    forallb well_formed (lines_of text) = true ->
    run_shape fs argv
      (Ok tt,
       mkState (map name_of (lines_of text))
         (map (fun l => end_of l - start_of l) (lines_of text))
         (map start_of (lines_of text)) false
         ([FileOpen path "r"; FileReadlines; FileClose]
          ++ map Plot
               (chart_calls (map name_of (lines_of text))
                  (map (fun l => end_of l - start_of l) (lines_of text))
                  (map start_of (lines_of text))))).

Module MoreSamples.

Definition empty_disk : filesystem := fun _ => None.

(** The first line of [Sample.two_lines] with another chromosome and
    three more columns. *)
Definition with_extras : string := "chrX 10 20 a 0 + thick".

Definition plain : string := "chr1 10 20 a".

(** A good line, an empty line and one more line. *)
Definition blank_second : string :=
  Sample.exon1 ++ Sample.nl ++ Sample.unterminated.

Definition both_bad : string := "chr1 1o 2o a".

End MoreSamples.

(** ** Lemmas on the loop *)

Lemma well_formed_fields (line : string) :
  well_formed line = true ->
  exists c s e n x y,
    PyStr.split line = c :: s :: e :: n :: x
    /\ PyStr.int s = Some y /\ exists z, PyStr.int e = Some z.
Proof.
  unfold well_formed, int_field, field.
  destruct (PyStr.split line) as [|c [|s [|e [|n x]]]]; simpl; try discriminate.
  destruct (PyStr.int s) as [y|] eqn:Hy; simpl; try discriminate.
  destruct (PyStr.int e) as [z|] eqn:Hz; simpl; try discriminate.
  intros _. exists c, s, e, n, x, y.
  split; [reflexivity|]. split; [exact Hy|]. now exists z.
Qed.

Lemma loop_body_well_formed (line : string) (st : state) :
  well_formed line = true ->
  loop_body line st = (Ok tt, loaded st [line]).
Proof.
  intros H. destruct (well_formed_fields line H)
    as (c & s & e & n & x & y & Hs & Hy & z & Hz).
  unfold loop_body, loaded, name_of, start_of, end_of, int_field, field.
  unfold bind, getitem, int. simpl. rewrite Hs. simpl. rewrite Hy, Hz.
  reflexivity.
Qed.

Lemma loaded_app (st : state) (l1 l2 : list string) :
  loaded (loaded st l1) l2 = loaded st (l1 ++ l2).
Proof.
  unfold loaded. simpl. rewrite !map_app, !app_assoc. reflexivity.
Qed.

Lemma for_each_well_formed (ls : list string) :
  forall st, forallb well_formed ls = true ->
  for_each ls loop_body st = (Ok tt, loaded st ls).
Proof.
  induction ls as [|l ls IH]; intros st H.
  - unfold loaded. simpl. rewrite !app_nil_r. now destruct st.
  - simpl in H. apply andb_true_iff in H as [Hl Hls].
    simpl. unfold bind. rewrite (loop_body_well_formed l st Hl).
    rewrite (IH _ Hls). rewrite loaded_app. reflexivity.
Qed.

Lemma for_each_abort (good rest : list string) (bad : string) (st st' : state)
    (e : exn) :
  forallb well_formed good = true ->
  loop_body bad (loaded st good) = (Raise e, st') ->
  for_each (good ++ bad :: rest) loop_body st = (Raise e, st').
Proof.
  revert st. induction good as [|l good IH]; intros st Hg Hb.
  - simpl. unfold bind.
    replace (loaded st []) with st in Hb.
    + now rewrite Hb.
    + unfold loaded. simpl. rewrite !app_nil_r. now destruct st.
  - simpl in Hg. apply andb_true_iff in Hg as [Hl Hg].
    simpl. unfold bind. rewrite (loop_body_well_formed l st Hl).
    apply IH; [exact Hg|]. now rewrite loaded_app.
Qed.

Lemma malformed_iff (line : string) :
  malformed line <-> well_formed line = false.
Proof.
  unfold malformed, well_formed. split.
  - intros [H | [H | H]].
    + apply Nat.leb_gt in H. now rewrite H.
    + rewrite H. simpl. now rewrite andb_false_r.
    + rewrite H. simpl. now rewrite andb_false_r.
  - intros H. destruct (Nat.leb_spec 4 (List.length (PyStr.split line))).
    + destruct (int_field 1 line); [|now right; left].
      destruct (int_field 2 line); [discriminate|now right; right].
    + now left.
Qed.

(** What the loop body does on a line it rejects. *)
Lemma loop_body_malformed (line : string) (st : state) :
  well_formed line = false ->
  ((List.length (PyStr.split line) < 4)%nat
   /\ loop_body line st = (Raise IndexError, st))
  \/ (exists name lit,
        field 3 line = Some name
        /\ (field 2 line = Some lit \/ field 1 line = Some lit)
        /\ PyStr.int lit = None
        /\ loop_body line st
           = (Raise (ValueError lit), push_feature name st)).
Proof.
  unfold well_formed, int_field, field, loop_body.
  destruct (PyStr.split line) as [|c [|s [|e [|n x]]]]; simpl;
    try (intros _; left; split; [lia | reflexivity]).
  intros H. right. unfold bind, getitem, int. simpl.
  destruct (PyStr.int e) as [z|] eqn:Hz.
  - destruct (PyStr.int s) as [y|] eqn:Hy; [discriminate|].
    exists n, s. repeat split; auto.
  - exists n, e. repeat split; auto.
Qed.

Lemma first_malformed (ls : list string) (bad : string) :
  In bad ls -> well_formed bad = false ->
  exists good first rest,
    ls = (good ++ first :: rest)%list
    /\ forallb well_formed good = true
    /\ well_formed first = false.
Proof.
  induction ls as [|l ls IH]; intros Hin Hbad; [contradiction|].
  destruct (well_formed l) eqn:Hl.
  - destruct Hin as [->|Hin]; [congruence|].
    destruct (IH Hin Hbad) as (good & first & rest & -> & Hg & Hf).
    exists (l :: good), first, rest. simpl. rewrite Hl. auto.
  - exists [], l, ls. auto.
Qed.

(** ** Lemmas on the stages *)

Lemma render_calls (st : state) :
  render st
  = (Ok tt,
     mkState (features st) (lengths st) (fstarts st) (handle_open st)
             (trace st
              ++ map Plot (chart_calls (features st) (lengths st) (fstarts st)))).
Proof.
  unfold render, chart_calls, bind, plot, modify, get, emit. simpl.
  rewrite <- !app_assoc. reflexivity.
Qed.

Lemma gate_rejects (argv : list string) (st : state) :
  List.length argv <> 2%nat ->
  gate argv st = (Raise (SystemExit usage), st).
Proof.
  intros H. unfold gate. apply Nat.eqb_neq in H. rewrite H. reflexivity.
Qed.

(** With one argument naming a readable file, the script is the loop
    followed by [close] and [render]. *)
Lemma run_opened (fs : filesystem) (prog path text : string) :
  fs path = Some text ->
  run fs [prog; path]
  = match for_each (lines_of text) loop_body (reading path) with
    | (Ok _, st) => render (set_handle false (emit FileClose st))
    | (Raise e, st) => (Raise e, st)
    end.
Proof.
  intros H. unfold run, main, gate, load, open, readlines, close, bind.
  simpl. rewrite H. simpl. fold (lines_of text).
  change (emit FileReadlines (mkState [] [] [] true [FileOpen path "r"]))
    with (reading path).
  destruct (for_each (lines_of text) loop_body (reading path)) as [[[]|e] st];
    simpl; [|reflexivity].
  destruct (render _) as [[[]|e] st']; reflexivity.
Qed.

Lemma run_well_formed (fs : filesystem) (prog path text : string) :
  fs path = Some text ->
  forallb well_formed (lines_of text) = true ->
  let ls := lines_of text in
  let names := map name_of ls in
  let widths := map (fun l => end_of l - start_of l) ls in
  let lefts := map start_of ls in
  run fs [prog; path]
  = (Ok tt,
     mkState names widths lefts false
       ([FileOpen path "r"; FileReadlines; FileClose]
        ++ map Plot (chart_calls names widths lefts))).
Proof.
  intros H Hwf. simpl. rewrite (run_opened fs prog path text H).
  rewrite (for_each_well_formed _ _ Hwf). rewrite render_calls. reflexivity.
Qed.

(** ** The loader on well-formed files *)

(** C1.  On a well-formed file, for every line [i]: the loop body appends
    the 4th field to [features], the integer of the 3rd field minus the
    integer of the 2nd to [lengths] and the integer of the 2nd to
    [fstarts]; after the run, entry [i] of each list holds exactly these
    values, so [lengths[i] = end - start]. *)
Theorem loader_appends_fields
    (fs : filesystem) (prog path text : string) (i : nat) (line : string) :
  fs path = Some text ->
  forallb well_formed (lines_of text) = true ->
  nth_error (lines_of text) i = Some line ->
  exists name s e,
    field 3 line = Some name
    /\ int_field 1 line = Some s
    /\ int_field 2 line = Some e
    /\ (forall st,
          loop_body line st
          = (Ok tt, push_fstart s (push_length (e - s) (push_feature name st))))
    /\ nth_error (features (snd (run fs [prog; path]))) i = Some name
    /\ nth_error (fstarts (snd (run fs [prog; path]))) i = Some s
    /\ nth_error (lengths (snd (run fs [prog; path]))) i = Some (e - s).
Proof.
  intros Hfs Hwf Hi.
  assert (Hl : well_formed line = true).
  { rewrite forallb_forall in Hwf. apply Hwf. eapply nth_error_In; eauto. }
  destruct (well_formed_fields line Hl)
    as (c & s & e & n & x & y & Hs & Hy & z & Hz).
  assert (Hn : name_of line = n)
    by (unfold name_of, field; rewrite Hs; reflexivity).
  assert (Hst : start_of line = y)
    by (unfold start_of, int_field, field; rewrite Hs; simpl; now rewrite Hy).
  assert (He : end_of line = z)
    by (unfold end_of, int_field, field; rewrite Hs; simpl; now rewrite Hz).
  exists n, y, z.
  split; [unfold field; now rewrite Hs|].
  split; [unfold int_field, field; rewrite Hs; exact Hy|].
  split; [unfold int_field, field; rewrite Hs; exact Hz|].
  split.
  { intros st. rewrite (loop_body_well_formed line st Hl).
    unfold loaded. simpl. now rewrite Hn, Hst, He. }
  pose proof (run_well_formed fs prog path text Hfs Hwf) as Hrun.
  simpl in Hrun. rewrite Hrun. simpl.
  rewrite !nth_error_map, Hi. simpl. now rewrite Hn, Hst, He.
Qed.

Lemma loader_appends_fields_witness :
  Sample.disk Sample.two_lines "gene.bed" = Some Sample.two_lines
  /\ forallb well_formed (lines_of Sample.two_lines) = true
  /\ nth_error (lines_of Sample.two_lines) 1
     = Some ("chr1 30 45 b" ++ Sample.nl)
  /\ exists name s e,
       field 3 ("chr1 30 45 b" ++ Sample.nl) = Some name
       /\ int_field 1 ("chr1 30 45 b" ++ Sample.nl) = Some s
       /\ int_field 2 ("chr1 30 45 b" ++ Sample.nl) = Some e
       /\ (forall st,
             loop_body ("chr1 30 45 b" ++ Sample.nl) st
             = (Ok tt,
                push_fstart s (push_length (e - s) (push_feature name st))))
       /\ nth_error
            (features (snd (run (Sample.disk Sample.two_lines) Sample.argv))) 1
          = Some name
       /\ nth_error
            (fstarts (snd (run (Sample.disk Sample.two_lines) Sample.argv))) 1
          = Some s
       /\ nth_error
            (lengths (snd (run (Sample.disk Sample.two_lines) Sample.argv))) 1
          = Some (e - s).
Proof.
  split; [reflexivity|]. split; [reflexivity|]. split; [reflexivity|].
  apply (loader_appends_fields (Sample.disk Sample.two_lines)
           "feature-view.py" "gene.bed" Sample.two_lines 1
           ("chr1 30 45 b" ++ Sample.nl)); reflexivity.
Defined.

(** C2.  On a well-formed file of N lines the three lists have length N
    each and are the images, in line order, of the list of lines: entry
    [i] of each comes from line [i], nothing is dropped, moved or
    sorted. *)
Theorem loader_lock_step (fs : filesystem) (prog path text : string) :
  fs path = Some text ->
  forallb well_formed (lines_of text) = true ->
  let st := snd (run fs [prog; path]) in
  let ls := lines_of text in
  List.length (features st) = List.length ls
  /\ List.length (lengths st) = List.length ls
  /\ List.length (fstarts st) = List.length ls
  /\ features st = map name_of ls
  /\ lengths st = map (fun l => end_of l - start_of l) ls
  /\ fstarts st = map start_of ls.
Proof.
  intros Hfs Hwf.
  pose proof (run_well_formed fs prog path text Hfs Hwf) as Hrun.
  simpl in Hrun. simpl. rewrite Hrun. simpl.
  rewrite !length_map. repeat split; reflexivity.
Qed.

Lemma loader_lock_step_witness :
  Sample.disk Sample.two_lines "gene.bed" = Some Sample.two_lines
  /\ forallb well_formed (lines_of Sample.two_lines) = true
  /\ let st := snd (run (Sample.disk Sample.two_lines) Sample.argv) in
     let ls := lines_of Sample.two_lines in
     List.length (features st) = List.length ls
     /\ List.length (lengths st) = List.length ls
     /\ List.length (fstarts st) = List.length ls
     /\ features st = map name_of ls
     /\ lengths st = map (fun l => end_of l - start_of l) ls
     /\ fstarts st = map start_of ls.
Proof.
  split; [reflexivity|]. split; [reflexivity|].
  apply (loader_lock_step (Sample.disk Sample.two_lines)
           "feature-view.py" "gene.bed" Sample.two_lines); reflexivity.
Defined.

(** ** The argument gate *)

(** C3.  Run with no argument as [feature-view.py], the script ends in
    [SystemExit] with status 1, and what reaches standard error is the
    fixed text [Usage: sys.argv[0] bed-file] followed by two newlines:
    the words [sys.argv[0]] stand in the message as written, the name of
    the program does not. *)
Theorem usage_message_is_literal (fs : filesystem) :
  run fs ["feature-view.py"] = (Raise (SystemExit usage), initial)
  /\ exit_status (fst (run fs ["feature-view.py"])) = 1
  /\ stderr_of (fst (run fs ["feature-view.py"]))
     = Text ("Usage: sys.argv[0] bed-file" ++ Sample.nl ++ Sample.nl)
  /\ contains "feature-view.py" usage = false
  /\ contains "sys.argv[0]" usage = true
  /\ usage <> "Usage: feature-view.py bed-file" ++ Sample.nl.
Proof.
  repeat split; try reflexivity. discriminate.
Qed.

(** C6.  With any number of arguments other than one, the script stops
    at the gate with the usage error: no file is opened, read or closed,
    and the handle is never acquired. *)
Theorem wrong_argc_never_opens (fs : filesystem) (argv : list string) :
  List.length argv <> 2%nat ->
  fst (run fs argv) = Raise (SystemExit usage)
  /\ (forall e, In e (trace (snd (run fs argv))) -> is_file_io e = false)
  /\ handle_open (snd (run fs argv)) = false.
Proof.
  intros H. unfold run, main, bind.
  rewrite (gate_rejects argv initial H). simpl.
  repeat split. intros e [].
Qed.

Lemma wrong_argc_never_opens_witness :
  List.length ["feature-view.py"; "a.bed"; "b.bed"] <> 2%nat
  /\ fst (run (Sample.disk Sample.two_lines)
             ["feature-view.py"; "a.bed"; "b.bed"])
     = Raise (SystemExit usage)
  /\ (forall e,
        In e (trace (snd (run (Sample.disk Sample.two_lines)
                              ["feature-view.py"; "a.bed"; "b.bed"]))) ->
        is_file_io e = false)
  /\ handle_open (snd (run (Sample.disk Sample.two_lines)
                           ["feature-view.py"; "a.bed"; "b.bed"])) = false.
Proof.
  split; [simpl; lia|].
  apply (wrong_argc_never_opens (Sample.disk Sample.two_lines)
           ["feature-view.py"; "a.bed"; "b.bed"]).
  simpl; lia.
Defined.

(** ** The chart renderer *)

Lemma arange_nth (n i : nat) :
  (i < n)%nat -> nth_error (arange n) i = Some (Z.of_nat i).
Proof.
  intros H. unfold arange. rewrite nth_error_map.
  rewrite nth_error_nth' with (d := 0%nat) by now rewrite length_seq.
  rewrite seq_nth by exact H. reflexivity.
Qed.

(** C5.  From any state, with N the length of [features], [render] calls
    [barh] with y-positions 0..N-1, widths [lengths], height 0.3, left
    offsets [fstarts] and centred alignment, then sets the y ticks, sets
    the tick labels to [features], inverts the y axis, labels the x axis
    "Position" and titles the chart "Gene subfeatures", in this order,
    and leaves the three lists as they are. *)
Theorem render_contract (st : state) :
  let n := List.length (features st) in
  let y_pos := arange n in
  render st
  = (Ok tt,
     mkState (features st) (lengths st) (fstarts st) (handle_open st)
       (trace st
        ++ [ Plot rcdefaults; Plot subplots;
             Plot (barh y_pos (lengths st) (3 # 10)%Q (fstarts st) "center");
             Plot (set_yticks y_pos);
             Plot (set_yticklabels (features st));
             Plot invert_yaxis;
             Plot (set_xlabel "Position");
             Plot (set_title "Gene subfeatures");
             Plot show ]))
  /\ List.length y_pos = n
  /\ (forall i, (i < n)%nat -> nth_error y_pos i = Some (Z.of_nat i)).
Proof.
  simpl. split; [apply render_calls|]. split.
  - unfold arange. now rewrite length_map, length_seq.
  - intros i H. now apply arange_nth.
Qed.

(** C9.  On a file without lines the loader leaves three empty lists and
    the script runs to its end: the file is closed, [barh] is called with
    no bar, the tick labels are set to the empty list, and the exit
    status is 0. *)
Theorem empty_file_renders (fs : filesystem) (prog path text : string) :
  fs path = Some text ->
  lines_of text = [] ->
  run fs [prog; path]
  = (Ok tt,
     mkState [] [] [] false
       [ FileOpen path "r"; FileReadlines; FileClose;
         Plot rcdefaults; Plot subplots;
         Plot (barh [] [] (3 # 10)%Q [] "center");
         Plot (set_yticks []);
         Plot (set_yticklabels []);
         Plot invert_yaxis;
         Plot (set_xlabel "Position");
         Plot (set_title "Gene subfeatures");
         Plot show ])
  /\ exit_status (fst (run fs [prog; path])) = 0.
Proof.
  intros Hfs Hls.
  assert (Hwf : forallb well_formed (lines_of text) = true)
    by now rewrite Hls.
  pose proof (run_well_formed fs prog path text Hfs Hwf) as Hrun.
  simpl in Hrun. rewrite Hls in Hrun. rewrite Hrun. split; reflexivity.
Qed.

Lemma empty_file_renders_witness :
  Sample.disk EmptyString "gene.bed" = Some EmptyString
  /\ lines_of EmptyString = []
  /\ run (Sample.disk EmptyString) Sample.argv
     = (Ok tt,
        mkState [] [] [] false
          [ FileOpen "gene.bed" "r"; FileReadlines; FileClose;
            Plot rcdefaults; Plot subplots;
            Plot (barh [] [] (3 # 10)%Q [] "center");
            Plot (set_yticks []);
            Plot (set_yticklabels []);
            Plot invert_yaxis;
            Plot (set_xlabel "Position");
            Plot (set_title "Gene subfeatures");
            Plot show ])
  /\ exit_status (fst (run (Sample.disk EmptyString) Sample.argv)) = 0.
Proof.
  split; [reflexivity|]. split; [reflexivity|].
  apply (empty_file_renders (Sample.disk EmptyString)
           "feature-view.py" "gene.bed" EmptyString); reflexivity.
Defined.

(** ** Malformed lines *)

Lemma run_first_malformed
    (fs : filesystem) (prog path text : string)
    (good rest : list string) (first : string) :
  fs path = Some text ->
  lines_of text = (good ++ first :: rest)%list ->
  forallb well_formed good = true ->
  well_formed first = false ->
  ((List.length (PyStr.split first) < 4)%nat
   /\ run fs [prog; path] = (Raise IndexError, loaded (reading path) good))
  \/ (exists name lit,
        field 3 first = Some name
        /\ (field 2 first = Some lit \/ field 1 first = Some lit)
        /\ PyStr.int lit = None
        /\ run fs [prog; path]
           = (Raise (ValueError lit),
              push_feature name (loaded (reading path) good))).
Proof.
  intros Hfs Hls Hg Hf. rewrite (run_opened fs prog path text Hfs), Hls.
  destruct (loop_body_malformed first (loaded (reading path) good) Hf)
    as [[Hlen Hb] | (name & lit & Hn & Hlit & Hint & Hb)].
  - left. split; [exact Hlen|].
    now rewrite (for_each_abort good rest first _ _ _ Hg Hb).
  - right. exists name, lit. repeat split; auto.
    now rewrite (for_each_abort good rest first _ _ _ Hg Hb).
Qed.

(** C4.  If some line of the file has fewer than four fields or a second
    or third field that is not an integer, the run ends in an uncaught
    exception raised at the first such line ([IndexError] when that line
    is short, [ValueError] otherwise); nothing of the lines after it is
    loaded, no call into the plotting library is made, and the exit
    status is 1. *)
Theorem malformed_line_aborts
    (fs : filesystem) (prog path text bad : string) :
  fs path = Some text ->
  In bad (lines_of text) ->
  malformed bad ->
  exists e st good first rest,
    run fs [prog; path] = (Raise e, st)
    /\ lines_of text = (good ++ first :: rest)%list
    /\ forallb well_formed good = true
    /\ malformed first
    /\ (((List.length (PyStr.split first) < 4)%nat /\ e = IndexError)
        \/ ((4 <= List.length (PyStr.split first))%nat
            /\ exists lit, e = ValueError lit /\ PyStr.int lit = None))
    /\ lengths st = map (fun l => end_of l - start_of l) good
    /\ fstarts st = map start_of good
    /\ (forall ev, In ev (trace st) -> is_plot ev = false)
    /\ exit_status (Raise e) = 1.
Proof.
  intros Hfs Hin Hbad. apply malformed_iff in Hbad.
  destruct (first_malformed _ _ Hin Hbad)
    as (good & first & rest & Hls & Hg & Hf).
  assert (Htr : forall st' ev,
             trace st' = [FileOpen path "r"; FileReadlines] ->
             In ev (trace st') -> is_plot ev = false).
  { intros st' ev -> [<-|[<-|[]]]; reflexivity. }
  destruct (run_first_malformed fs prog path text good rest first
              Hfs Hls Hg Hf)
    as [[Hlen Hrun] | (name & lit & Hn & Hlit & Hint & Hrun)].
  - exists IndexError, (loaded (reading path) good), good, first, rest.
    repeat split; auto.
    + now apply malformed_iff.
    + intros ev. now apply Htr.
  - exists (ValueError lit), (push_feature name (loaded (reading path) good)),
      good, first, rest.
    repeat split; auto.
    + now apply malformed_iff.
    + right. split.
      * unfold field in Hn. apply nth_error_Some. rewrite Hn. discriminate.
      * now exists lit.
    + intros ev. now apply Htr.
Qed.

Lemma malformed_line_aborts_witness :
  Sample.disk Sample.three_fields "gene.bed" = Some Sample.three_fields
  /\ In Sample.no_name (lines_of Sample.three_fields)
  /\ malformed Sample.no_name
  /\ exists e st good first rest,
       run (Sample.disk Sample.three_fields) Sample.argv = (Raise e, st)
       /\ lines_of Sample.three_fields = (good ++ first :: rest)%list
       /\ forallb well_formed good = true
       /\ malformed first
       /\ (((List.length (PyStr.split first) < 4)%nat /\ e = IndexError)
           \/ ((4 <= List.length (PyStr.split first))%nat
               /\ exists lit, e = ValueError lit /\ PyStr.int lit = None))
       /\ lengths st = map (fun l => end_of l - start_of l) good
       /\ fstarts st = map start_of good
       /\ (forall ev, In ev (trace st) -> is_plot ev = false)
       /\ exit_status (Raise e) = 1.
Proof.
  split; [reflexivity|].
  split; [right; left; reflexivity|].
  split; [left; vm_compute; lia|].
  apply (malformed_line_aborts (Sample.disk Sample.three_fields)
           "feature-view.py" "gene.bed" Sample.three_fields
           Sample.no_name).
  - reflexivity.
  - right; left; reflexivity.
  - left; vm_compute; lia.
Defined.

(** C10.  When the first malformed line has four fields or more but a
    second or third field that is not an integer, its name is already in
    [features] when [ValueError] is raised: [features] is then exactly
    one longer than [lengths] and than [fstarts]. *)
Theorem name_appended_before_failure
    (fs : filesystem) (prog path text : string)
    (good rest : list string) (bad : string) :
  fs path = Some text ->
  lines_of text = (good ++ bad :: rest)%list ->
  forallb well_formed good = true ->
  (4 <= List.length (PyStr.split bad))%nat ->
  int_field 1 bad = None \/ int_field 2 bad = None ->
  exists name lit st,
    field 3 bad = Some name
    /\ run fs [prog; path] = (Raise (ValueError lit), st)
    /\ features st = (map name_of good ++ [name])%list
    /\ lengths st = map (fun l => end_of l - start_of l) good
    /\ fstarts st = map start_of good
    /\ List.length (features st) = S (List.length (lengths st))
    /\ List.length (features st) = S (List.length (fstarts st)).
Proof.
  intros Hfs Hls Hg Hlen Hint.
  assert (Hf : well_formed bad = false).
  { apply malformed_iff. right. exact Hint. }
  destruct (run_first_malformed fs prog path text good rest bad
              Hfs Hls Hg Hf)
    as [[Hlt _] | (name & lit & Hn & _ & _ & Hrun)]; [lia|].
  exists name, lit, (push_feature name (loaded (reading path) good)).
  split; [exact Hn|]. split; [exact Hrun|]. simpl.
  rewrite length_app, !length_map. simpl.
  repeat split; lia.
Qed.

Lemma name_appended_before_failure_witness :
  Sample.disk Sample.bad_start "gene.bed" = Some Sample.bad_start
  /\ lines_of Sample.bad_start
     = ([Sample.exon1] ++ Sample.letter_in_start :: [Sample.unterminated])%list
  /\ forallb well_formed [Sample.exon1] = true
  /\ (4 <= List.length (PyStr.split Sample.letter_in_start))%nat
  /\ (int_field 1 Sample.letter_in_start = None
      \/ int_field 2 Sample.letter_in_start = None)
  /\ exists name lit st,
       field 3 Sample.letter_in_start = Some name
       /\ run (Sample.disk Sample.bad_start) Sample.argv
          = (Raise (ValueError lit), st)
       /\ features st
          = (map name_of [Sample.exon1] ++ [name])%list
       /\ lengths st
          = map (fun l => end_of l - start_of l)
                [Sample.exon1]
       /\ fstarts st = map start_of [Sample.exon1]
       /\ List.length (features st) = S (List.length (lengths st))
       /\ List.length (features st) = S (List.length (fstarts st)).
Proof.
  split; [reflexivity|]. split; [reflexivity|]. split; [reflexivity|].
  split; [vm_compute; lia|]. split; [left; reflexivity|].
  apply (name_appended_before_failure (Sample.disk Sample.bad_start)
           "feature-view.py" "gene.bed" Sample.bad_start
           [Sample.exon1] [Sample.unterminated]
           Sample.letter_in_start).
  - reflexivity.
  - reflexivity.
  - reflexivity.
  - vm_compute; lia.
  - left; reflexivity.
Defined.

(** ** The file handle *)

(** C7, as stated, fails.  On a file whose second line has a letter in
    its start field the file is opened, [ValueError] leaves the script,
    and at that point the script has made no [close] call: the handle is
    still open. *)
Lemma handle_left_open_on_malformed_line :
  Sample.disk Sample.bad_start "gene.bed" = Some Sample.bad_start
  /\ fst (run (Sample.disk Sample.bad_start) Sample.argv)
     = Raise (ValueError "1o")
  /\ In (FileOpen "gene.bed" "r")
        (trace (snd (run (Sample.disk Sample.bad_start) Sample.argv)))
  /\ ~ In FileClose
         (trace (snd (run (Sample.disk Sample.bad_start) Sample.argv)))
  /\ handle_open (snd (run (Sample.disk Sample.bad_start) Sample.argv))
     = true.
Proof.
  split; [reflexivity|]. split; [reflexivity|].
  split; [left; reflexivity|]. split; [|reflexivity].
  intros [H|[H|[]]]; discriminate H.
Qed.

(** C7, amended.  When the file opens and every line is well-formed, the
    script closes the handle by one [close] call after [readlines] and
    the loop, and every plotting call comes after it.  When some line is
    malformed the script ends in an exception without a [close] call and
    with the handle still open.  In both cases a plotting call is never
    made before [close]. *)
Theorem close_only_after_full_read
    (fs : filesystem) (prog path text : string) :
  fs path = Some text ->
  let r := fst (run fs [prog; path]) in
  let st := snd (run fs [prog; path]) in
  (if forallb well_formed (lines_of text) then
     r = Ok tt
     /\ handle_open st = false
     /\ trace st
        = ([FileOpen path "r"; FileReadlines; FileClose]
           ++ map Plot (chart_calls (features st) (lengths st) (fstarts st)))%list
   else
     (exists e, r = Raise e)
     /\ handle_open st = true
     /\ trace st = [FileOpen path "r"; FileReadlines])
  /\ (forall pre c post,
        trace st = (pre ++ Plot c :: post)%list -> In FileClose pre).
Proof.
  intros Hfs. simpl.
  destruct (forallb well_formed (lines_of text)) eqn:Hwf.
  - pose proof (run_well_formed fs prog path text Hfs Hwf) as Hrun.
    simpl in Hrun. rewrite Hrun. simpl. split; [repeat split|].
    intros [|a [|b [|d pre]]] c post H; simpl in H; try discriminate H.
    injection H as Ha Hb Hd _. subst a b d. simpl. auto.
  - assert (Hex : exists bad, In bad (lines_of text) /\ well_formed bad = false).
    { clear Hfs. induction (lines_of text) as [|l ls IH]; [discriminate|].
      simpl in Hwf. destruct (well_formed l) eqn:Hl.
      - destruct (IH Hwf) as (bad & Hin & Hb). exists bad. simpl. auto.
      - exists l. simpl. auto. }
    destruct Hex as (bad & Hin & Hb).
    destruct (first_malformed _ _ Hin Hb)
      as (good & first & rest & Hls & Hg & Hf).
    assert (Hshape : (exists e, fst (run fs [prog; path]) = Raise e)
                     /\ handle_open (snd (run fs [prog; path])) = true
                     /\ trace (snd (run fs [prog; path]))
                        = [FileOpen path "r"; FileReadlines]).
    { destruct (run_first_malformed fs prog path text good rest first
                  Hfs Hls Hg Hf)
        as [[_ Hrun] | (name & lit & _ & _ & _ & Hrun)];
        rewrite Hrun; simpl; repeat split; eauto. }
    split; [exact Hshape|].
    destruct Hshape as (_ & _ & Htr). rewrite Htr.
    intros [|a [|b [|d pre]]] c post H; simpl in H; discriminate H.
Qed.

Lemma close_only_after_full_read_witness :
  Sample.disk Sample.two_lines "gene.bed" = Some Sample.two_lines
  /\ let r := fst (run (Sample.disk Sample.two_lines) Sample.argv) in
     let st := snd (run (Sample.disk Sample.two_lines) Sample.argv) in
     (if forallb well_formed (lines_of Sample.two_lines) then
        r = Ok tt
        /\ handle_open st = false
        /\ trace st
           = ([FileOpen "gene.bed" "r"; FileReadlines; FileClose]
              ++ map Plot
                   (chart_calls (features st) (lengths st) (fstarts st)))%list
      else
        (exists e, r = Raise e)
        /\ handle_open st = true
        /\ trace st = [FileOpen "gene.bed" "r"; FileReadlines])
     /\ (forall pre c post,
           trace st = (pre ++ Plot c :: post)%list -> In FileClose pre).
Proof.
  split; [reflexivity|].
  apply (close_only_after_full_read (Sample.disk Sample.two_lines)
           "feature-view.py" "gene.bed" Sample.two_lines).
  reflexivity.
Defined.

(** ** The sign of the positions *)

Module PyStrFacts.
Import PyStr.

Lemma rev_append_nospace (s : string) :
  forall acc, nospace acc = true -> nospace s = true ->
  nospace (rev_append acc s) = true.
Proof.
  induction s as [|c s IH]; intros acc Ha Hs; simpl in *; [exact Ha|].
  apply andb_true_iff in Hs as [Hc Hs].
  apply IH; [|exact Hs]. simpl. now rewrite Hc, Ha.
Qed.

Lemma split_from_nospace (s : string) :
  forall cur,
    (forall w, cur = Some w -> nospace w = true) ->
    Forall (fun x => nospace x = true) (split_from cur s).
Proof.
  induction s as [|c s IH]; intros cur Hcur; simpl.
  - destruct cur as [w|]; constructor; [|constructor].
    apply rev_append_nospace; [reflexivity|now apply Hcur].
  - destruct (isspace c) eqn:Hc.
    + destruct cur as [w|].
      * constructor.
        -- apply rev_append_nospace; [reflexivity|now apply Hcur].
        -- apply IH. discriminate.
      * apply IH. discriminate.
    + destruct cur as [w|]; apply IH; intros w' [= <-]; simpl; rewrite Hc.
      * simpl. now apply Hcur.
      * reflexivity.
Qed.

Lemma field_nospace (i : nat) (line x : string) :
  nth_error (split line) i = Some x -> nospace x = true.
Proof.
  intros H. apply nth_error_In in H.
  pose proof (split_from_nospace line None) as Hall.
  rewrite Forall_forall in Hall. apply Hall; [discriminate|exact H].
Qed.

Lemma append_empty_r (s : string) : s ++ EmptyString = s.
Proof.
  induction s as [|c s IH]; simpl; [reflexivity|now rewrite IH].
Qed.

Lemma rev_append_twice (s : string) :
  forall a b, rev_append a (rev_append b s) = rev_append (s ++ a) b.
Proof.
  induction s as [|c s IH]; intros a b; simpl; [reflexivity|].
  now rewrite IH.
Qed.

Lemma rev_involutive (s : string) : rev (rev s) = s.
Proof.
  unfold rev. rewrite rev_append_twice. simpl. apply append_empty_r.
Qed.

Lemma lstrip_nospace (s : string) : nospace s = true -> lstrip s = s.
Proof.
  destruct s as [|c s]; simpl; [reflexivity|].
  intros H. apply andb_true_iff in H as [Hc _].
  apply negb_true_iff in Hc. now rewrite Hc.
Qed.

Lemma strip_nospace (s : string) : nospace s = true -> strip s = s.
Proof.
  intros H. unfold strip. rewrite (lstrip_nospace s H).
  rewrite lstrip_nospace.
  - apply rev_involutive.
  - unfold rev. now apply rev_append_nospace.
Qed.

Lemma digit_value_nonneg (c : ascii) : isdigit c = true -> 0 <= digit_value c.
Proof.
  unfold isdigit, digit_value. intros H.
  apply andb_true_iff in H as [H _]. apply N.leb_le in H. lia.
Qed.

Lemma digits_from_nonneg (s : string) :
  forall b acc z, 0 <= acc -> digits_from b acc s = Some z -> 0 <= z.
Proof.
  induction s as [|c s IH]; intros b acc z Hacc H; simpl in H.
  - destruct b; [now injection H as <-|discriminate].
  - destruct (isdigit c) eqn:Hc.
    + apply (IH true (10 * acc + digit_value c)); [|exact H].
      pose proof (digit_value_nonneg c Hc). lia.
    + destruct (Ascii.eqb c "_" && b)%bool; [|discriminate].
      destruct s as [|d s']; [discriminate|].
      destruct (isdigit d); [|discriminate].
      now apply (IH false acc).
Qed.

(** [int] of a field gives a negative number only when the field is
    written with a leading minus sign. *)
Lemma int_nonneg (s : string) (z : Z) :
  nospace s = true -> starts_with_minus s = false ->
  int s = Some z -> 0 <= z.
Proof.
  intros Hs Hm. unfold int. rewrite (strip_nospace s Hs).
  destruct s as [|c s']; [discriminate|].
  destruct c as [[] [] [] [] [] [] [] []]; try discriminate Hm;
    intros H; eapply digits_from_nonneg; try exact H; lia.
Qed.

End PyStrFacts.

(** C8, as stated, fails.  The line [chr1 -5 -2 x] is accepted: the run
    ends normally with start -5, and the end it parsed is -2. *)
Lemma negative_positions_accepted :
  fst (run (Sample.disk Sample.negative) Sample.argv) = Ok tt
  /\ lines_of Sample.negative = [Sample.negative]
  /\ int_field 1 Sample.negative = Some (-5)
  /\ int_field 2 Sample.negative = Some (-2)
  /\ features (snd (run (Sample.disk Sample.negative) Sample.argv)) = ["x"]
  /\ fstarts (snd (run (Sample.disk Sample.negative) Sample.argv)) = [-5]
  /\ lengths (snd (run (Sample.disk Sample.negative) Sample.argv)) = [3]
  /\ ~ (0 <= -5) /\ ~ (0 <= -2).
Proof.
  repeat split; try reflexivity; lia.
Qed.

(** C8, amended.  For every feature the loader accepts, the start and
    the end it parsed are integers, and each of them is greater than or
    equal to 0 whenever its field does not begin with a minus sign. *)
Theorem positions_negative_only_with_minus
    (fs : filesystem) (prog path text : string) (i : nat) (line : string) :
  fs path = Some text ->
  forallb well_formed (lines_of text) = true ->
  nth_error (lines_of text) i = Some line ->
  exists f1 f2 s e,
    field 1 line = Some f1
    /\ field 2 line = Some f2
    /\ PyStr.int f1 = Some s
    /\ PyStr.int f2 = Some e
    /\ nth_error (fstarts (snd (run fs [prog; path]))) i = Some s
    /\ nth_error (lengths (snd (run fs [prog; path]))) i = Some (e - s)
    /\ (starts_with_minus f1 = false -> 0 <= s)
    /\ (starts_with_minus f2 = false -> 0 <= e).
Proof.
  intros Hfs Hwf Hi.
  assert (Hl : well_formed line = true).
  { rewrite forallb_forall in Hwf. apply Hwf. eapply nth_error_In; eauto. }
  destruct (well_formed_fields line Hl)
    as (c & f1 & f2 & n & x & s & Hs & Hy & e & Hz).
  assert (H1 : field 1 line = Some f1) by (unfold field; now rewrite Hs).
  assert (H2 : field 2 line = Some f2) by (unfold field; now rewrite Hs).
  exists f1, f2, s, e.
  split; [exact H1|]. split; [exact H2|].
  split; [exact Hy|]. split; [exact Hz|].
  pose proof (run_well_formed fs prog path text Hfs Hwf) as Hrun.
  simpl in Hrun. rewrite Hrun. simpl.
  rewrite !nth_error_map, Hi. simpl.
  unfold start_of, end_of, int_field. rewrite H1, H2, Hy, Hz. simpl.
  split; [reflexivity|]. split; [reflexivity|]. split; intros Hm.
  - apply (PyStrFacts.int_nonneg f1 s); auto.
    now apply (PyStrFacts.field_nospace 1 line).
  - apply (PyStrFacts.int_nonneg f2 e); auto.
    now apply (PyStrFacts.field_nospace 2 line).
Qed.

Lemma positions_negative_only_with_minus_witness :
  Sample.disk Sample.two_lines "gene.bed" = Some Sample.two_lines
  /\ forallb well_formed (lines_of Sample.two_lines) = true
  /\ nth_error (lines_of Sample.two_lines) 0
     = Some ("chr1 10 20 a" ++ Sample.nl)
  /\ exists f1 f2 s e,
       field 1 ("chr1 10 20 a" ++ Sample.nl) = Some f1
       /\ field 2 ("chr1 10 20 a" ++ Sample.nl) = Some f2
       /\ PyStr.int f1 = Some s
       /\ PyStr.int f2 = Some e
       /\ nth_error
            (fstarts (snd (run (Sample.disk Sample.two_lines) Sample.argv))) 0
          = Some s
       /\ nth_error
            (lengths (snd (run (Sample.disk Sample.two_lines) Sample.argv))) 0
          = Some (e - s)
       /\ (starts_with_minus f1 = false -> 0 <= s)
       /\ (starts_with_minus f2 = false -> 0 <= e).
Proof.
  split; [reflexivity|]. split; [reflexivity|]. split; [reflexivity|].
  apply (positions_negative_only_with_minus (Sample.disk Sample.two_lines)
           "feature-view.py" "gene.bed" Sample.two_lines 0
           ("chr1 10 20 a" ++ Sample.nl)); reflexivity.
Defined.

(** ** How a run can end *)

Lemma run_missing (fs : filesystem) (prog path : string) :
  fs path = None ->
  run fs [prog; path]
  = (Raise (OSError path), mkState [] [] [] false [FileOpen path "r"]).
Proof.
  intros H. unfold run, main, gate, load, open, bind. simpl.
  rewrite H. reflexivity.
Qed.

Lemma forallb_false_In (ls : list string) :
  forallb well_formed ls = false ->
  exists bad, In bad ls /\ well_formed bad = false.
Proof.
  induction ls as [|l ls IH]; [discriminate|].
  simpl. destruct (well_formed l) eqn:Hl; simpl.
  - intros H. destruct (IH H) as (bad & Hin & Hb). exists bad. auto.
  - intros _. exists l. auto.
Qed.

Lemma run_has_shape (fs : filesystem) (argv : list string) :
  run_shape fs argv (run fs argv).
Proof.
  destruct (Nat.eq_dec (List.length argv) 2) as [Hlen|Hlen].
  - destruct argv as [|prog [|path [|x argv]]]; try discriminate Hlen.
    destruct (fs path) as [text|] eqn:Hfs.
    + destruct (forallb well_formed (lines_of text)) eqn:Hwf.
      * pose proof (run_well_formed fs prog path text Hfs Hwf) as Hrun.
        simpl in Hrun. rewrite Hrun.
        now apply (shape_drawn fs _ prog path text).
      * destruct (forallb_false_In _ Hwf) as (bad & Hin & Hb).
        destruct (first_malformed _ _ Hin Hb)
          as (good & first & rest & Hls & Hg & Hf).
        destruct (run_first_malformed fs prog path text good rest first
                    Hfs Hls Hg Hf)
          as [[Hshort Hrun] | (name & lit & Hn & Hlit & Hint & Hrun)];
          rewrite Hrun.
        -- now apply (shape_short fs _ prog path text good rest first).
        -- now apply (shape_not_int fs _ prog path text good rest first
                        name lit).
    + rewrite (run_missing fs prog path Hfs).
      now apply (shape_missing fs _ prog path).
  - unfold run, main, bind. rewrite (gate_rejects argv initial Hlen).
    now apply shape_usage.
Qed.

Ltac by_shape :=
  match goal with
  | |- context [run ?fs ?argv] =>
      let o := fresh "o" in
      let Hshape := fresh "Hshape" in
      generalize (run_has_shape fs argv); generalize (run fs argv);
      intros o Hshape; destruct Hshape
  end.

(** X1.  When the path names no readable file, the run ends in [OSError]
    raised by [open]: nothing is read or closed, no plotting call is made,
    no handle is held, and the exit status is 1. *)
Theorem missing_file_fails_at_open (fs : filesystem) (prog path : string) :
  fs path = None ->
  fst (run fs [prog; path]) = Raise (OSError path)
  /\ trace (snd (run fs [prog; path])) = [FileOpen path "r"]
  /\ handle_open (snd (run fs [prog; path])) = false
  /\ exit_status (fst (run fs [prog; path])) = 1.
Proof.
  intros H. rewrite (run_missing fs prog path H). repeat split.
Qed.

Lemma missing_file_fails_at_open_witness :
  MoreSamples.empty_disk "gene.bed" = None
  /\ fst (run MoreSamples.empty_disk Sample.argv) = Raise (OSError "gene.bed")
  /\ trace (snd (run MoreSamples.empty_disk Sample.argv))
     = [FileOpen "gene.bed" "r"]
  /\ handle_open (snd (run MoreSamples.empty_disk Sample.argv)) = false
  /\ exit_status (fst (run MoreSamples.empty_disk Sample.argv)) = 1.
Proof.
  split; [reflexivity|].
  apply (missing_file_fails_at_open MoreSamples.empty_disk
           "feature-view.py" "gene.bed").
  reflexivity.
Defined.






(** X5.  In whatever way a run ends, [lengths] and [fstarts] have the
    same length, and [features] has that length too, or one more; one
    more only when the run ended in [ValueError]. *)
Theorem lists_lock_step_in_every_run (fs : filesystem) (argv : list string) :
  List.length (lengths (snd (run fs argv)))
  = List.length (fstarts (snd (run fs argv)))
  /\ (List.length (features (snd (run fs argv)))
      = List.length (lengths (snd (run fs argv)))
      \/ (List.length (features (snd (run fs argv)))
          = S (List.length (lengths (snd (run fs argv))))
          /\ exists lit, fst (run fs argv) = Raise (ValueError lit))).
Proof.
  by_shape; simpl; rewrite ?length_app, ?length_map; simpl.
  - auto.
  - auto.
  - auto.
  - split; [reflexivity|]. right. split; [lia|]. now exists lit.
  - auto.
Qed.

(** X6.  When the first malformed line has fewer than four fields, the
    run ends in [IndexError] before anything of that line is appended:
    the three lists hold exactly the lines before it, all of the same
    length, and the file is still open. *)
Theorem short_line_appends_nothing
    (fs : filesystem) (prog path text : string)
    (good rest : list string) (first : string) :
  fs path = Some text ->
  lines_of text = (good ++ first :: rest)%list ->
  forallb well_formed good = true ->
  (List.length (PyStr.split first) < 4)%nat ->
  fst (run fs [prog; path]) = Raise IndexError
  /\ features (snd (run fs [prog; path])) = map name_of good
  /\ lengths (snd (run fs [prog; path]))
     = map (fun l => end_of l - start_of l) good
  /\ fstarts (snd (run fs [prog; path])) = map start_of good
  /\ handle_open (snd (run fs [prog; path])) = true.
Proof.
  intros Hfs Hls Hg Hshort.
  assert (Hf : well_formed first = false) by (apply malformed_iff; now left).
  destruct (run_first_malformed fs prog path text good rest first
              Hfs Hls Hg Hf)
    as [[_ Hrun] | (name & lit & Hn & _ & _ & _)].
  - rewrite Hrun. repeat split.
  - unfold field in Hn.
    assert (3 < List.length (PyStr.split first))%nat
      by (apply nth_error_Some; rewrite Hn; discriminate).
    lia.
Qed.

Lemma short_line_appends_nothing_witness :
  Sample.disk Sample.three_fields "gene.bed" = Some Sample.three_fields
  /\ lines_of Sample.three_fields
     = ([Sample.exon1] ++ Sample.no_name :: [])%list
  /\ forallb well_formed [Sample.exon1] = true
  /\ (List.length (PyStr.split Sample.no_name) < 4)%nat
  /\ fst (run (Sample.disk Sample.three_fields) Sample.argv) = Raise IndexError
  /\ features (snd (run (Sample.disk Sample.three_fields) Sample.argv))
     = map name_of [Sample.exon1]
  /\ lengths (snd (run (Sample.disk Sample.three_fields) Sample.argv))
     = map (fun l => end_of l - start_of l) [Sample.exon1]
  /\ fstarts (snd (run (Sample.disk Sample.three_fields) Sample.argv))
     = map start_of [Sample.exon1]
  /\ handle_open (snd (run (Sample.disk Sample.three_fields) Sample.argv))
     = true.
Proof.
  split; [reflexivity|]. split; [reflexivity|]. split; [reflexivity|].
  split; [vm_compute; lia|].
  apply (short_line_appends_nothing (Sample.disk Sample.three_fields)
           "feature-view.py" "gene.bed" Sample.three_fields
           [Sample.exon1] [] Sample.no_name).
  - reflexivity.
  - reflexivity.
  - reflexivity.
  - vm_compute; lia.
Defined.

(** ** What a line is read as *)

Module SplitFacts.
Import PyStr.

Lemma split_from_all_space (w : string) :
  forall cur, all_space w = true ->
  split_from cur w = split_from cur EmptyString.
Proof.
  induction w as [|c w IH]; intros cur H; [reflexivity|].
  simpl in H. apply andb_true_iff in H as [Hc Hw].
  simpl. rewrite Hc. destruct cur as [x|]; rewrite (IH None Hw); reflexivity.
Qed.

Lemma split_from_app_space (s w : string) :
  forall cur, all_space w = true ->
  split_from cur (s ++ w) = split_from cur s.
Proof.
  induction s as [|c s IH]; intros cur H.
  - simpl. now apply split_from_all_space.
  - simpl. destruct (isspace c); destruct cur as [x|]; now rewrite IH.
Qed.

Lemma split_space_app (w s : string) :
  all_space w = true -> split (w ++ s) = split s.
Proof.
  unfold split. induction w as [|c w IH]; intros H; [reflexivity|].
  simpl in H. apply andb_true_iff in H as [Hc Hw].
  simpl. rewrite Hc. now apply IH.
Qed.

Lemma split_all_space (w : string) : all_space w = true -> split w = [].
Proof.
  intros H. unfold split. now rewrite split_from_all_space.
Qed.

Lemma rev_append_nonempty (s : string) :
  forall acc, acc <> EmptyString -> rev_append acc s <> EmptyString.
Proof.
  induction s as [|c s IH]; intros acc H; simpl; [exact H|].
  apply IH. discriminate.
Qed.

Lemma rev_nonempty (w : string) : w <> EmptyString -> rev w <> EmptyString.
Proof.
  destruct w as [|c w]; intros H; [contradiction|].
  unfold rev. simpl. apply rev_append_nonempty. discriminate.
Qed.

Lemma split_from_nonempty (s : string) :
  forall cur,
    (forall w, cur = Some w -> w <> EmptyString) ->
    Forall (fun x => x <> EmptyString) (split_from cur s).
Proof.
  induction s as [|c s IH]; intros cur Hcur; simpl.
  - destruct cur as [w|]; constructor; [|constructor].
    apply rev_nonempty. now apply Hcur.
  - destruct (isspace c).
    + destruct cur as [w|].
      * constructor.
        -- apply rev_nonempty. now apply Hcur.
        -- apply IH. discriminate.
      * apply IH. discriminate.
    + destruct cur as [w|]; apply IH; intros w' [= <-]; discriminate.
Qed.

Lemma field_nonempty (i : nat) (line x : string) :
  nth_error (split line) i = Some x -> x <> EmptyString.
Proof.
  intros H. apply nth_error_In in H.
  pose proof (split_from_nonempty line None) as Hall.
  rewrite Forall_forall in Hall. apply Hall; [discriminate|exact H].
Qed.

Lemma universal_newlines_crlf (s : string) :
  no_cr s = true -> universal_newlines (crlf s) = universal_newlines s.
Proof.
  induction s as [|c s IH]; intros H; [reflexivity|].
  simpl in H. apply andb_true_iff in H as [Hc Hs].
  apply negb_true_iff in Hc.
  cbn [crlf]. destruct (Ascii.eqb c LF) eqn:Hlf.
  - cbn [universal_newlines]. rewrite Hc.
    replace (Ascii.eqb CR CR) with true by reflexivity.
    replace (Ascii.eqb LF LF) with true by reflexivity.
    apply Ascii.eqb_eq in Hlf. subst c. now rewrite (IH Hs).
  - cbn [universal_newlines]. rewrite Hc. now rewrite (IH Hs).
Qed.

End SplitFacts.

(** X7.  The loop body reads the second, third and fourth field of a
    line and nothing else: two lines that agree on these three fields are
    treated alike, whatever their first field and their further fields. *)
Theorem loop_body_reads_three_fields (line line' : string) (st : state) :
  field 1 line = field 1 line' ->
  field 2 line = field 2 line' ->
  field 3 line = field 3 line' ->
  loop_body line st = loop_body line' st.
Proof.
  unfold field, loop_body, getitem, bind. intros H1 H2 H3.
  cbv zeta. rewrite H1, H2, H3. reflexivity.
Qed.

Lemma loop_body_reads_three_fields_witness :
  field 1 MoreSamples.plain = field 1 MoreSamples.with_extras
  /\ field 2 MoreSamples.plain = field 2 MoreSamples.with_extras
  /\ field 3 MoreSamples.plain = field 3 MoreSamples.with_extras
  /\ loop_body MoreSamples.plain initial
     = loop_body MoreSamples.with_extras initial.
Proof.
  split; [reflexivity|]. split; [reflexivity|]. split; [reflexivity|].
  apply (loop_body_reads_three_fields MoreSamples.plain
           MoreSamples.with_extras initial); reflexivity.
Defined.

(** X8.  Whitespace before the first field and after the last one, the
    line terminator included, does not change what the loop body does
    with a line. *)
Theorem surrounding_whitespace_ignored (w1 w2 line : string) (st : state) :
  all_space w1 = true ->
  all_space w2 = true ->
  loop_body (w1 ++ line ++ w2) st = loop_body line st.
Proof.
  intros H1 H2.
  assert (E : PyStr.split (w1 ++ line ++ w2) = PyStr.split line).
  { rewrite (SplitFacts.split_space_app w1 _ H1).
    unfold PyStr.split. now apply SplitFacts.split_from_app_space. }
  apply loop_body_reads_three_fields; unfold field; now rewrite E.
Qed.

Lemma surrounding_whitespace_ignored_witness :
  all_space "  " = true
  /\ all_space Sample.nl = true
  /\ loop_body ("  " ++ MoreSamples.plain ++ Sample.nl) initial
     = loop_body MoreSamples.plain initial.
Proof.
  split; [reflexivity|]. split; [reflexivity|].
  apply (surrounding_whitespace_ignored "  " Sample.nl MoreSamples.plain
           initial); reflexivity.
Defined.

(** X9.  A line made of whitespace only, such as an empty line, has no
    field: the loop body raises [IndexError] on it and changes nothing,
    and a file with such a line is never drawn. *)
Theorem blank_line_stops_the_run
    (fs : filesystem) (prog path text blank : string) :
  fs path = Some text ->
  In blank (lines_of text) ->
  all_space blank = true ->
  PyStr.split blank = []
  /\ (forall st, loop_body blank st = (Raise IndexError, st))
  /\ (exists e, fst (run fs [prog; path]) = Raise e)
  /\ (forall ev, In ev (trace (snd (run fs [prog; path]))) ->
      is_plot ev = false).
Proof.
  intros Hfs Hin Hsp.
  pose proof (SplitFacts.split_all_space blank Hsp) as Hsplit.
  split; [exact Hsplit|]. split.
  { intros st. unfold loop_body, getitem, bind. cbv zeta.
    rewrite Hsplit. reflexivity. }
  assert (Hb : well_formed blank = false).
  { apply malformed_iff. left. rewrite Hsplit. simpl. lia. }
  destruct (first_malformed _ _ Hin Hb)
    as (good & first & rest & Hls & Hg & Hf).
  destruct (run_first_malformed fs prog path text good rest first
              Hfs Hls Hg Hf)
    as [[_ Hrun] | (name & lit & _ & _ & _ & Hrun)];
    rewrite Hrun; simpl; (split; [eauto|]);
    intros ev [<-|[<-|[]]]; reflexivity.
Qed.

Lemma blank_line_stops_the_run_witness :
  Sample.disk MoreSamples.blank_second "gene.bed"
  = Some MoreSamples.blank_second
  /\ In Sample.nl (lines_of MoreSamples.blank_second)
  /\ all_space Sample.nl = true
  /\ PyStr.split Sample.nl = []
  /\ (forall st, loop_body Sample.nl st = (Raise IndexError, st))
  /\ (exists e,
        fst (run (Sample.disk MoreSamples.blank_second) Sample.argv) = Raise e)
  /\ (forall ev,
        In ev (trace (snd (run (Sample.disk MoreSamples.blank_second)
                               Sample.argv))) ->
        is_plot ev = false).
Proof.
  split; [reflexivity|]. split; [right; left; reflexivity|].
  split; [reflexivity|].
  apply (blank_line_stops_the_run (Sample.disk MoreSamples.blank_second)
           "feature-view.py" "gene.bed" MoreSamples.blank_second Sample.nl).
  - reflexivity.
  - right; left; reflexivity.
  - reflexivity.
Defined.

(** X10.  After a run on a well-formed file, every name in [features] is
    a non-empty string without whitespace. *)
Theorem labels_are_words
    (fs : filesystem) (prog path text name : string) :
  fs path = Some text ->
  forallb well_formed (lines_of text) = true ->
  In name (features (snd (run fs [prog; path]))) ->
  name <> EmptyString /\ nospace name = true.
Proof.
  intros Hfs Hwf.
  pose proof (run_well_formed fs prog path text Hfs Hwf) as Hrun.
  simpl in Hrun. rewrite Hrun. simpl. intros Hin.
  apply in_map_iff in Hin as (line & <- & Hline).
  rewrite forallb_forall in Hwf.
  destruct (well_formed_fields line (Hwf line Hline))
    as (c & s & e & n & x & y & Hs & _).
  assert (Hn : nth_error (PyStr.split line) 3 = Some n) by now rewrite Hs.
  unfold name_of, field. rewrite Hn. simpl. split.
  - exact (SplitFacts.field_nonempty 3 line n Hn).
  - exact (PyStrFacts.field_nospace 3 line n Hn).
Qed.

Lemma labels_are_words_witness :
  Sample.disk Sample.two_lines "gene.bed" = Some Sample.two_lines
  /\ forallb well_formed (lines_of Sample.two_lines) = true
  /\ In "b" (features (snd (run (Sample.disk Sample.two_lines) Sample.argv)))
  /\ "b" <> EmptyString /\ nospace "b" = true.
Proof.
  split; [reflexivity|]. split; [reflexivity|].
  split; [right; left; reflexivity|].
  apply (labels_are_words (Sample.disk Sample.two_lines)
           "feature-view.py" "gene.bed" Sample.two_lines "b").
  - reflexivity.
  - reflexivity.
  - right; left; reflexivity.
Defined.

(** X11.  On a line of four fields or more, the third field is converted
    before the second: when the third is not an integer the [ValueError]
    is about the third field, whatever the second is; it is about the
    second only when the third is an integer.  In both cases the name has
    been appended and nothing else. *)
Theorem end_field_converted_first
    (line name f1 f2 : string) (st : state) :
  field 3 line = Some name ->
  field 1 line = Some f1 ->
  field 2 line = Some f2 ->
  PyStr.int f1 = None \/ PyStr.int f2 = None ->
  loop_body line st
  = (Raise (ValueError (if is_some (PyStr.int f2) then f1 else f2)),
     push_feature name st).
Proof.
  unfold field, loop_body, getitem, int, bind. intros H3 H1 H2 Hbad.
  cbv zeta. rewrite H3, H2, H1. simpl.
  destruct (PyStr.int f2) as [e|]; simpl; [|reflexivity].
  destruct Hbad as [Hbad|Hbad]; [|discriminate]. now rewrite Hbad.
Qed.

Lemma end_field_converted_first_witness :
  field 3 MoreSamples.both_bad = Some "a"
  /\ field 1 MoreSamples.both_bad = Some "1o"
  /\ field 2 MoreSamples.both_bad = Some "2o"
  /\ (PyStr.int "1o" = None \/ PyStr.int "2o" = None)
  /\ loop_body MoreSamples.both_bad initial
     = (Raise (ValueError (if is_some (PyStr.int "2o") then "1o" else "2o")),
        push_feature "a" initial).
Proof.
  split; [reflexivity|]. split; [reflexivity|]. split; [reflexivity|].
  split; [left; reflexivity|].
  apply (end_field_converted_first MoreSamples.both_bad "a" "1o" "2o" initial).
  - reflexivity.
  - reflexivity.
  - reflexivity.
  - left; reflexivity.
Defined.

(** X12.  A file whose lines end in CR LF is read as the same file with
    lines ending in LF: the two runs end alike, in the same state. *)
Theorem crlf_file_runs_alike
    (fs fs' : filesystem) (prog path text : string) :
  no_cr text = true ->
  fs path = Some text ->
  fs' path = Some (crlf text) ->
  run fs' [prog; path] = run fs [prog; path].
Proof.
  intros Hcr Hfs Hfs'.
  rewrite (run_opened fs prog path text Hfs).
  rewrite (run_opened fs' prog path (crlf text) Hfs').
  unfold lines_of. now rewrite (SplitFacts.universal_newlines_crlf text Hcr).
Qed.

Lemma crlf_file_runs_alike_witness :
  no_cr Sample.two_lines = true
  /\ Sample.disk Sample.two_lines "gene.bed" = Some Sample.two_lines
  /\ Sample.disk (crlf Sample.two_lines) "gene.bed"
     = Some (crlf Sample.two_lines)
  /\ run (Sample.disk (crlf Sample.two_lines)) Sample.argv
     = run (Sample.disk Sample.two_lines) Sample.argv.
Proof.
  split; [reflexivity|]. split; [reflexivity|]. split; [reflexivity|].
  apply (crlf_file_runs_alike (Sample.disk Sample.two_lines)
           (Sample.disk (crlf Sample.two_lines))
           "feature-view.py" "gene.bed" Sample.two_lines); reflexivity.
Defined.

(** X13.  The name the script is run under is never looked at: two runs
    that differ only in [sys.argv[0]] end alike, in the same state. *)
Theorem program_name_unused
    (fs : filesystem) (prog prog' : string) (args : list string) :
  run fs (prog :: args) = run fs (prog' :: args).
Proof.
  unfold run, main, gate, bind.
  destruct args as [|a [|b args]]; reflexivity.
Qed.
